(** * try_https.py: the HTTPS reachability probe of the installer's sanity check

    The script under [src-tauri/python_scripts/sanity_check/try_https.py]
    opens one fixed URL with [urllib.request.urlopen], compares the status
    code of the response with 200, prints one of two messages and, in the
    failing branch, calls [exit(1)].

    The development has four layers:
    - [PyRuntime]: the pieces of the Python runtime the script relies on
      ([str] of an [int], [repr] of a [bytes], [print], what the
      interpreter does with an exception nobody catches);
    - [OsEnviron]: what [urllib.request] reads from the environment
      variables before it sends anything;
    - [Urllib]: what [urllib.request.urlopen] does with the answers of the
      network: the check of the status line by [http.client], the
      redirects it follows, the errors it raises, the object it returns;
    - [TryHttps]: the script itself, statement by statement, in a small
      monad that threads standard output, a log of the calls made and a
      log of the requests sent. *)

From Stdlib Require Import ZArith NArith List String Ascii Bool Lia.
From Stdlib.Strings Require Import Byte.
From Stdlib Require Import DecimalString DecimalZ DecimalPos.
Import ListNotations.

Local Open Scope Z_scope.
Local Open Scope string_scope.

(* ===================================================================== *)
(** ** Python runtime *)
(* ===================================================================== *)

Module PyRuntime.

(** A [bytes] object. *)
Definition bytes := list byte.

(** Characters that are awkward to write as literals. *)
Definition LF : ascii := ascii_of_N 10.
Definition TAB : ascii := ascii_of_N 9.
Definition CR : ascii := ascii_of_N 13.
Definition SQUOTE : ascii := ascii_of_N 39.
Definition DQUOTE : ascii := ascii_of_N 34.
Definition BACKSLASH : ascii := ascii_of_N 92.

Definition chr (a : ascii) : string := String a EmptyString.

(** [str(n)] for an [int]: decimal digits, a leading minus sign when
    negative. *)
Definition int_str (n : Z) : string := NilZero.string_of_int (Z.to_int n).

(** One digit of [Py_hexdigits] (lower case). *)
Definition hexdigit (n : N) : ascii :=
  if (n <? 10)%N then ascii_of_N (48 + n) else ascii_of_N (87 + n).

(** The text one byte contributes to [repr] of a [bytes], inside the
    quote [quote] (the loop body of [PyBytes_Repr]). *)
Definition repr_byte (quote : ascii) (c : byte) : string :=
  let a := ascii_of_byte c in
  let n := Byte.to_N c in
  if Ascii.eqb a quote || Ascii.eqb a BACKSLASH then String BACKSLASH (chr a)
  else if Ascii.eqb a TAB then String BACKSLASH "t"
  else if Ascii.eqb a LF then String BACKSLASH "n"
  else if Ascii.eqb a CR then String BACKSLASH "r"
  else if (n <? 32)%N || (127 <=? n)%N then
    String BACKSLASH
      (String "x" (String (hexdigit (N.shiftr (N.land n 240) 4))
                          (chr (hexdigit (N.land n 15)))))
  else chr a.

Definition has_char (a : ascii) (b : bytes) : bool :=
  existsb (fun c => Ascii.eqb (ascii_of_byte c) a) b.

(** The quote [repr] chooses: a double quote when the bytes hold a single
    quote and no double quote, a single quote otherwise. *)
Definition repr_quote (b : bytes) : ascii :=
  if has_char SQUOTE b && negb (has_char DQUOTE b) then DQUOTE else SQUOTE.

Definition repr_body (quote : ascii) (b : bytes) : string :=
  String.concat "" (map (repr_byte quote) b).

(** [repr(b)] for a [bytes]; [str(b)] is the same text. *)
Definition bytes_repr (b : bytes) : string :=
  let quote := repr_quote b in
  String "b" (String quote (repr_body quote b ++ chr quote)).

(** The objects the script hands to [print]. *)
Inductive pyobject : Type :=
| PyStr (s : string)
| PyInt (n : Z)
| PyBytes (b : bytes)
| PyNone.

Definition py_str (o : pyobject) : string :=
  match o with
  | PyStr s => s
  | PyInt n => int_str n
  | PyBytes b => bytes_repr b
  | PyNone => "None"
  end.

(** [a == b] on these objects: objects of different types are not equal. *)
Definition py_eq (a b : pyobject) : bool :=
  match a, b with
  | PyStr s, PyStr t => String.eqb s t
  | PyInt n, PyInt m => Z.eqb n m
  | PyBytes x, PyBytes y =>
      if list_eq_dec Byte.byte_eq_dec x y then true else false
  | PyNone, PyNone => true
  | _, _ => false
  end.

(** The text [print] writes for its arguments: the [str] of each one,
    separated by one space, ended by a newline. *)
Definition print_text (args : list pyobject) : string :=
  String.concat " " (map py_str args) ++ chr LF.

(** The bytes of a text of one-byte characters, and back. *)
Definition encode (s : string) : bytes := list_byte_of_string s.
Definition decode (b : bytes) : string := string_of_list_byte b.

(** Reasons for which the transport gives no response, and the two other
    reasons [urllib] wraps in a [URLError]. *)
Inductive transport_error : Type :=
| DnsFailure
| TlsHandshakeFailure
| ConnectionRefused
| TimedOut
| FtpError
| UnknownUrlType.

(** Ways in which the body of a response breaks while it is read. *)
Inductive read_error : Type :=
| BodyIncomplete
| BodyTimedOut
| BodyReset.

(** The exceptions that occur in a run of the script. *)
Inductive exn : Type :=
| URLError (reason : transport_error)
| HTTPError (code : Z)
| SystemExit (code : Z)
| BadStatusLine
| IncompleteRead
| TimeoutError
| ConnectionResetError.

(** The exception [read] raises for a broken body. *)
Definition exn_of_read_error (e : read_error) : exn :=
  match e with
  | BodyIncomplete => IncompleteRead
  | BodyTimedOut => TimeoutError
  | BodyReset => ConnectionResetError
  end.

(** How a computation ends: with a value, or with a raised exception. *)
Inductive completion (A : Type) : Type :=
| Normal (a : A)
| Raised (e : exn).
Arguments Normal {A} a.
Arguments Raised {A} e.

End PyRuntime.
Import PyRuntime.

(* ===================================================================== *)
(** ** Reading a [bytes] literal back *)
(* ===================================================================== *)

Module Literal.

(** The value of a lower-case hexadecimal digit. *)
Definition unhex (a : ascii) : option N :=
  let n := N_of_ascii a in
  if (48 <=? n)%N && (n <=? 57)%N then Some (n - 48)%N
  else if (97 <=? n)%N && (n <=? 102)%N then Some (n - 87)%N
  else None.

Definition byte_of_N (n : N) : option byte := Byte.of_N n.

Definition cons_byte (c : option byte) (rest : option bytes) : option bytes :=
  match c, rest with
  | Some c, Some rest => Some (c :: rest)
  | _, _ => None
  end.

(** The bytes written between the quotes of a literal, up to the closing
    quote, which has to be the last character. *)
Fixpoint unrepr_body (quote : ascii) (s : string) : option bytes :=
  match s with
  | EmptyString => None
  | String a rest =>
      if Ascii.eqb a quote then
        match rest with
        | EmptyString => Some []
        | String _ _ => None
        end
      else if Ascii.eqb a BACKSLASH then
        match rest with
        | EmptyString => None
        | String e rest' =>
            if Ascii.eqb e "t" then
              cons_byte (Some (byte_of_ascii TAB)) (unrepr_body quote rest')
            else if Ascii.eqb e "n" then
              cons_byte (Some (byte_of_ascii LF)) (unrepr_body quote rest')
            else if Ascii.eqb e "r" then
              cons_byte (Some (byte_of_ascii CR)) (unrepr_body quote rest')
            else if Ascii.eqb e "x" then
              match rest' with
              | String h (String l rest'') =>
                  match unhex h, unhex l with
                  | Some hi, Some lo =>
                      cons_byte (byte_of_N (16 * hi + lo))
                                (unrepr_body quote rest'')
                  | _, _ => None
                  end
              | _ => None
              end
            else
              cons_byte (Some (byte_of_ascii e)) (unrepr_body quote rest')
        end
      else cons_byte (Some (byte_of_ascii a)) (unrepr_body quote rest)
  end.

(** The bytes a literal [b'...'] or [b"..."] denotes. *)
Definition bytes_unrepr (s : string) : option bytes :=
  match s with
  | String "b" (String quote body) =>
      if Ascii.eqb quote SQUOTE || Ascii.eqb quote DQUOTE
      then unrepr_body quote body
      else None
  | _ => None
  end.

End Literal.

(* ===================================================================== *)
(** ** What urllib reads from the environment *)
(* ===================================================================== *)

Module OsEnviron.

(** A [dict] with text keys, as the list of its items. *)
Definition dict (V : Type) : Type := list (string * V).

Fixpoint dict_get {V : Type} (d : dict V) (k : string) : option V :=
  match d with
  | [] => None
  | (k', v) :: d' => if String.eqb k' k then Some v else dict_get d' k
  end.

(** [d[k] = v]. *)
Fixpoint dict_set {V : Type} (d : dict V) (k : string) (v : V) : dict V :=
  match d with
  | [] => [(k, v)]
  | (k', v') :: d' =>
      if String.eqb k' k then (k, v) :: d' else (k', v') :: dict_set d' k v
  end.

(** [d.pop(k, None)]. *)
Fixpoint dict_pop {V : Type} (d : dict V) (k : string) : dict V :=
  match d with
  | [] => []
  | (k', v') :: d' =>
      if String.eqb k' k then dict_pop d' k else (k', v') :: dict_pop d' k
  end.

(** [str.lower], on the letters A to Z. *)
Definition lower_char (a : ascii) : ascii :=
  let n := N_of_ascii a in
  if (65 <=? n)%N && (n <=? 90)%N then ascii_of_N (n + 32) else a.

Fixpoint lower (s : string) : string :=
  match s with
  | EmptyString => EmptyString
  | String a s' => String (lower_char a) (lower s')
  end.

(** [s[-6:]] and [s[:-6]]. *)
Definition last6 (s : string) : string :=
  substring (String.length s - 6) 6 s.
Definition but_last6 (s : string) : string :=
  substring 0 (String.length s - 6) s.

(** The first loop of [getproxies_environment]: any spelling of
    [<scheme>_proxy] with a value that is not empty. *)
Definition first_pass (proxies : dict string) (item : string * string)
    : dict string :=
  let name := lower (fst item) in
  let value := snd item in
  if negb (String.eqb value "") && String.eqb (last6 name) "_proxy"
  then dict_set proxies (but_last6 name) value
  else proxies.

(** The second loop: the lower-case spellings win, and an empty value
    removes the entry. *)
Definition second_pass (proxies : dict string) (item : string * string)
    : dict string :=
  let name := fst item in
  let value := snd item in
  if String.eqb (last6 name) "_proxy" then
    let name := lower name in
    if negb (String.eqb value "")
    then dict_set proxies (but_last6 name) value
    else dict_pop proxies (but_last6 name)
  else proxies.

Definition in_environ (name : string) (environ : dict string) : bool :=
  match dict_get environ name with
  | Some _ => true
  | None => false
  end.

(** [urllib.request.getproxies_environment], over the items of
    [os.environ] in their order. *)
Definition getproxies_environment (environ : dict string) : dict string :=
  let proxies := fold_left first_pass environ [] in
  let proxies :=
    if in_environ "REQUEST_METHOD" environ then dict_pop proxies "http"
    else proxies in
  fold_left second_pass environ proxies.

(** What the client takes from the environment before it sends a request:
    the proxies of [ProxyHandler] (the entry [no] holds the hosts to reach
    directly) and the two variables from which the TLS library takes the
    certificates it trusts. *)
Record client_config : Type := mkConfig {
  proxies : dict string;
  ssl_cert_file : option string;
  ssl_cert_dir : option string
}.

Definition client_config_of (environ : dict string) : client_config :=
  mkConfig (getproxies_environment environ)
           (dict_get environ "SSL_CERT_FILE")
           (dict_get environ "SSL_CERT_DIR").

End OsEnviron.
Import OsEnviron.

(* ===================================================================== *)
(** ** The process and its surroundings *)
(* ===================================================================== *)

(** [urllib.request.Request]: the URL and the optional body to post. *)
Record Request : Type := mkRequest {
  full_url : string;
  data : option bytes
}.



(** What the network does with one request, for the exchanges that come
    to an end (the script passes no timeout, so a peer that stays silent
    blocks the run inside [urlopen]; such a run has no result and is not
    among these):
    - no response at all;
    - a reply with a status line, no [Location] header and a body that
      arrives whole;
    - a reply with a status line and no [Location] header whose body
      breaks while it is read;
    - a reply with a status line, a [Location] header and a body;
      [target] is the absolute URL the header resolves to;
    - the file an FTP server hands out.
    The code of a reply is the number on the status line [http.client]
    ends at; it skips the interim status lines with code 100, so a reply
    with code 100 is one after which no further status line comes. *)
Inductive exchange : Type :=
| NoResponse (reason : transport_error)
| Reply (code : Z) (body : bytes)
| Truncated (code : Z) (failure : read_error)
| Located (code : Z) (target : string) (body : bytes)
| FtpFile (body : bytes).

(** Everything outside the script that a run could depend on.  The
    answers of the internet depend on the request and on what the client
    took from the environment: the proxy it goes through, the
    certificates it trusts. *)
Record process_env : Type := mkProcessEnv {
  argv : list string;
  environ : dict string;
  config_file : option string;
  internet : client_config -> Request -> exchange
}.

(** The answers a run gets, the environment being what it is. *)
Definition network (env : process_env) : Request -> exchange :=
  internet env (client_config_of (environ env)).

(** A surrounding whose answers do not depend on the environment. *)
Definition mkEnv (args : list string) (vars : dict string)
    (config : option string) (net : Request -> exchange) : process_env :=
  mkProcessEnv args vars config (fun _ => net).

(** [http.client.HTTPResponse] as [urlopen] returns it: the status code is
    known, the body is still to be read and may break. *)
Record HTTPResponse : Type := mkHTTPResponse {
  status : Z;
  body_stream : bytes + read_error
}.

(** A response whose body arrives whole. *)
Definition mkResponse (code : Z) (body : bytes) : HTTPResponse :=
  mkHTTPResponse code (inl body).

(** The bytes [read] hands over: the body, or nothing when it breaks. *)
Definition payload (r : HTTPResponse) : bytes :=
  match body_stream r with
  | inl body => body
  | inr _ => []
  end.

(** What [urlopen] returns: an [HTTPResponse] for an HTTP or HTTPS URL,
    an [addinfourl] with no status code for an FTP URL. *)
Inductive response_object : Type :=
| HttpObj (r : HTTPResponse)
| AddInfoUrl (stream : bytes + read_error).

Definition stream_of (o : response_object) : bytes + read_error :=
  match o with
  | HttpObj r => body_stream r
  | AddInfoUrl stream => stream
  end.

(** The calls a run makes on the network, on the response and on the
    interpreter, in order. *)
Inductive call : Type :=
| CallUrlOpen (req : Request)
| CallGetCode
| CallRead
| CallExit (code : Z).

(** The state a run threads: what was written to standard output, the
    calls made so far and the requests [urllib] has sent. *)
Record world : Type := mkWorld {
  stdout : string;
  calls : list call;
  sent : list Request
}.

Definition initial_world : world := mkWorld "" [] [].

(** Computations of the script: they read the surroundings, update the
    world and end normally or with an exception. *)
Definition Proc (A : Type) : Type :=
  process_env -> world -> completion A * world.

Definition ret {A : Type} (a : A) : Proc A :=
  fun _ w => (Normal a, w).

Definition bind {A B : Type} (c : Proc A) (k : A -> Proc B) : Proc B :=
  fun env w =>
    match c env w with
    | (Normal a, w') => k a env w'
    | (Raised e, w') => (Raised e, w')
    end.

Definition raise {A : Type} (e : exn) : Proc A :=
  fun _ w => (Raised e, w).

Definition record_call (c : call) : Proc unit :=
  fun _ w => (Normal tt, mkWorld (stdout w) (calls w ++ [c]) (sent w)).

Definition record_sent (l : list Request) : Proc unit :=
  fun _ w => (Normal tt, mkWorld (stdout w) (calls w) (sent w ++ l)).

Definition write_stdout (s : string) : Proc unit :=
  fun _ w => (Normal tt, mkWorld (stdout w ++ s) (calls w) (sent w)).

Definition ask_network : Proc (Request -> exchange) :=
  fun env w => (Normal (network env), w).

Definition complete {A : Type} (c : completion A) : Proc A :=
  fun _ w => (c, w).

Declare Scope proc_scope.
Delimit Scope proc_scope with proc.
Notation "x <- c ;; k" := (bind c (fun x => k))
  (at level 61, c at next level, right associativity) : proc_scope.
Notation "c ;; k" := (bind c (fun _ => k))
  (at level 61, right associativity) : proc_scope.
Local Open Scope proc_scope.

(** [print] of its arguments. *)
Definition print (args : list pyobject) : Proc unit :=
  write_stdout (print_text args).

(** [exit(code)]: raises [SystemExit]. *)
Definition exit (code : Z) : Proc unit :=
  record_call (CallExit code) ;;
  raise (SystemExit code).

(** The status codes [HTTPErrorProcessor] lets through. *)
Definition is_2xx (code : Z) : bool := (200 <=? code)%Z && (code <? 300)%Z.

(* ===================================================================== *)
(** ** urllib.request *)
(* ===================================================================== *)

Module Urllib.

Inductive url_scheme : Type :=
| SchemeHttp
| SchemeHttps
| SchemeFtp
| SchemeOther.

(** The text before the first colon of a URL, when it is not empty and no
    slash comes before the colon ([_splittype]). *)
Fixpoint split_type (u : string) : option string :=
  match u with
  | EmptyString => None
  | String c u' =>
      if Ascii.eqb c ":" then Some EmptyString
      else if Ascii.eqb c "/" then None
      else option_map (String c) (split_type u')
  end.

(** [Request.type], in lower case, as far as the handlers tell it apart. *)
Definition scheme_of (u : string) : url_scheme :=
  match split_type u with
  | Some t =>
      let t := lower t in
      if String.eqb t "https" then SchemeHttps
      else if String.eqb t "http" then SchemeHttp
      else if String.eqb t "ftp" then SchemeFtp
      else SchemeOther
  | None => SchemeOther
  end.

Definition scheme_eqb (a b : url_scheme) : bool :=
  match a, b with
  | SchemeHttp, SchemeHttp => true
  | SchemeHttps, SchemeHttps => true
  | SchemeFtp, SchemeFtp => true
  | SchemeOther, SchemeOther => true
  | _, _ => false
  end.

(** The handler a URL goes to. *)
Definition is_scheme (s : url_scheme) (u : string) : bool :=
  scheme_eqb (scheme_of u) s.

(** What [http.client] makes of an answer: the status line, the
    [Location] header and the body still to be read. *)
Record http_reply : Type := mkReply {
  reply_code : Z;
  reply_location : option string;
  reply_body : bytes + read_error
}.

(** [HTTPResponse._read_status] and [begin]: the number on the status line
    has to lie between 100 and 999, and a status line with 100 is skipped,
    after which the next one is missing. *)
Definition check_status (r : http_reply) : http_reply + exn :=
  let code := reply_code r in
  if (code <? 100)%Z || (999 <? code)%Z || (code =? 100)%Z
  then inr BadStatusLine
  else inl r.

(** [AbstractHTTPHandler.do_open]. *)
Definition http_begin (x : exchange) : http_reply + exn :=
  match x with
  | NoResponse reason => inr (URLError reason)
  | Reply code body => check_status (mkReply code None (inl body))
  | Truncated code failure => check_status (mkReply code None (inr failure))
  | Located code target body =>
      check_status (mkReply code (Some target) (inl body))
  | FtpFile _ => inr BadStatusLine
  end.

(** [FTPHandler.ftp_open]: the object it returns has no status code. *)
Definition ftp_open (x : exchange) : completion response_object :=
  match x with
  | FtpFile body => Normal (AddInfoUrl (inl body))
  | NoResponse reason => Raised (URLError reason)
  | _ => Raised (URLError FtpError)
  end.

(** [HTTPRedirectHandler]. *)
Definition max_repeats : nat := 4.
Definition max_redirections : nat := 10.

Definition is_redirect_code (code : Z) : bool :=
  (code =? 301)%Z || (code =? 302)%Z || (code =? 303)%Z ||
  (code =? 307)%Z || (code =? 308)%Z.

(** The URL a reply redirects to: one of the five codes and a [Location]
    header. *)
Definition redirect_target (r : http_reply) : option string :=
  if is_redirect_code (reply_code r) then reply_location r else None.

(** Redirects lead to HTTP, HTTPS and FTP URLs only. *)
Definition allowed_scheme (s : url_scheme) : bool :=
  match s with
  | SchemeOther => false
  | _ => true
  end.

(** [visited.get(newurl, 0)]. *)
Definition visits (visited : dict nat) (newurl : string) : nat :=
  match dict_get visited newurl with
  | Some n => n
  | None => 0%nat
  end.

(** The loop detection of [http_error_302]: the first redirect of a chain
    finds no [redirect_dict] on the request and is never refused. *)
Definition refused (visited : option (dict nat)) (newurl : string) : bool :=
  match visited with
  | None => false
  | Some d =>
      (max_repeats <=? visits d newurl)%nat ||
      (max_redirections <=? List.length d)%nat
  end.

(** [visited[newurl] = visited.get(newurl, 0) + 1]. *)
Definition visit (visited : option (dict nat)) (newurl : string) : dict nat :=
  match visited with
  | None => [(newurl, 1%nat)]
  | Some d => dict_set d newurl (visits d newurl + 1)%nat
  end.

(** [OpenerDirector.open] for a request and the requests that follow from
    it: the outcome and the requests sent, in order.  [fuel] bounds the
    redirects followed; the loop detection stops a chain before 40 of
    them (lemma [director_open_fuel]). *)
Fixpoint director_open (net : Request -> exchange) (fuel : nat)
    (visited : option (dict nat)) (req : Request)
    : completion response_object * list Request :=
  if is_scheme SchemeOther (full_url req) then
    (Raised (URLError UnknownUrlType), [])
  else if is_scheme SchemeFtp (full_url req) then
    (ftp_open (net req), [req])
  else
    match http_begin (net req) with
    | inr e => (Raised e, [req])
    | inl reply =>
        let code := reply_code reply in
        if is_2xx code then
          (Normal (HttpObj (mkHTTPResponse code (reply_body reply))), [req])
        else
          match redirect_target reply with
          | None => (Raised (HTTPError code), [req])
          | Some newurl =>
              if negb (allowed_scheme (scheme_of newurl)) then
                (Raised (HTTPError code), [req])
              else if refused visited newurl then
                (Raised (HTTPError code), [req])
              else
                match fuel with
                | O => (Raised (HTTPError code), [req])
                | S fuel' =>
                    match director_open net fuel'
                            (Some (visit visited newurl))
                            (mkRequest newurl None) with
                    | (outcome, l) => (outcome, req :: l)
                    end
                end
          end
    end.

(** [urllib.request.urlopen(url)], with no [data]. *)
Definition urlopen (u : string) : Proc response_object :=
  let req := mkRequest u None in
  record_call (CallUrlOpen req) ;;
  net <- ask_network ;;
  match director_open net 40 None req with
  | (outcome, l) =>
      record_sent l ;;
      complete outcome
  end.

(** [response.getcode()]. *)
Definition getcode (o : response_object) : Proc pyobject :=
  record_call CallGetCode ;;
  ret (match o with
       | HttpObj r => PyInt (status r)
       | AddInfoUrl _ => PyNone
       end).

(** [response.read()]. *)
Definition read (o : response_object) : Proc bytes :=
  record_call CallRead ;;
  match stream_of o with
  | inl body => ret body
  | inr failure => raise (exn_of_read_error failure)
  end.

End Urllib.

(* ===================================================================== *)
(** ** The script *)
(* ===================================================================== *)

Module TryHttps.

Definition url : string := "https://dl.espressif.com/".

(** The request the script's [urlopen(url)] stands for. *)
Definition probe_request : Request := mkRequest url None.

Definition success_marker : string := "Request successful!".
Definition content_label : string := "Response content:".
Definition failure_label : string := "Request failed. Status code:".

(** What follows [response = urllib.request.urlopen(url)]. *)
Definition check_response (response : response_object) : Proc unit :=
  code <- Urllib.getcode response ;;
  if py_eq code (PyInt 200) then
    print [PyStr success_marker] ;;
    content <- Urllib.read response ;;
    print [PyStr content_label; PyBytes content]
  else
    code' <- Urllib.getcode response ;;
    print [PyStr failure_label; code'] ;;
    exit 1.

(** The module body of try_https.py. *)
Definition main : Proc unit :=
  response <- Urllib.urlopen url ;;
  check_response response.

(** What is seen of a finished process. *)
Record process_result : Type := mkResult {
  out : string;
  traceback : option exn;
  exit_status : Z;
  trace : list call
}.

(** The interpreter around the module body: falling off the end is exit
    status 0; an uncaught [SystemExit] gives its code as the exit status
    and prints no traceback; any other uncaught exception prints its
    traceback on standard error and gives exit status 1. *)
Definition finish (r : completion unit * world) : process_result :=
  match r with
  | (Normal _, w) => mkResult (stdout w) None 0 (calls w)
  | (Raised (SystemExit code), w) => mkResult (stdout w) None code (calls w)
  | (Raised e, w) => mkResult (stdout w) (Some e) 1 (calls w)
  end.

Definition run (env : process_env) : process_result :=
  finish (main env initial_world).

(** The requests that went out during a run. *)
Definition sent_requests (env : process_env) : list Request :=
  sent (snd (main env initial_world)).

End TryHttps.
Import TryHttps.

(* ===================================================================== *)
(** ** Vocabulary of the statements *)
(* ===================================================================== *)

(** [sub] occurs somewhere in [s]. *)
Definition Contains (s sub : string) : Prop :=
  exists pre post, s = pre ++ sub ++ post.

(** The same, as a test. *)
Fixpoint occurs (sub s : string) : bool :=
  prefix sub s ||
  match s with
  | EmptyString => false
  | String _ s' => occurs sub s'
  end.

(** A line of standard output: its text and the newline. *)
Definition line (s : string) : string := s ++ chr LF.

(** The requests among the calls of a run. *)
Fixpoint urlopen_calls (l : list call) : list Request :=
  match l with
  | [] => []
  | CallUrlOpen req :: l' => req :: urlopen_calls l'
  | _ :: l' => urlopen_calls l'
  end.

(** A surrounding with no arguments, no variables and no configuration,
    whose network answers every request with [x]. *)
Definition bare_env (x : exchange) : process_env :=
  mkEnv [] [] None (fun _ => x).

(** The world right after the script's only [urlopen], the requests sent
    being [l]. *)
Definition opened_with (l : list Request) : world :=
  mkWorld "" [CallUrlOpen probe_request] l.

(** The same when the first answer ends the call. *)
Definition opened : world := opened_with [probe_request].

(** The outcome of the script's [urlopen] and the requests it sends. *)
Definition chain (env : process_env)
    : completion response_object * list Request :=
  Urllib.director_open (network env) 40 None probe_request.


(** A printable ASCII character, from the space to the tilde. *)
Definition printable (a : ascii) : bool :=
  let n := N_of_ascii a in (32 <=? n)%N && (n <=? 126)%N.

(** Every character of [s] passes [p]. *)
Fixpoint all_chars (p : ascii -> bool) (s : string) : bool :=
  match s with
  | EmptyString => true
  | String a s' => p a && all_chars p s'
  end.

(** How often [a] occurs in [s]. *)
Fixpoint count_char (a : ascii) (s : string) : nat :=
  match s with
  | EmptyString => 0%nat
  | String c s' => ((if Ascii.eqb c a then 1 else 0) + count_char a s')%nat
  end.

(** The integer a decimal text denotes. *)
Definition parse_int (s : string) : option Z :=
  option_map Z.of_int (NilZero.int_of_string s).

(** A byte [repr] writes as itself inside single quotes: printable, and
    neither a single quote nor a backslash. *)
Definition plain_byte (c : byte) : bool :=
  let a := ascii_of_byte c in
  printable a && negb (Ascii.eqb a SQUOTE) && negb (Ascii.eqb a BACKSLASH).

(** A [read] that makes the call and raises [e], as when the connection
    breaks while the body arrives. *)
Definition failing_read (e : exn) (_ : response_object) : Proc bytes :=
  record_call CallRead ;;
  raise e.

(** The script over a response object whose [read] is [read_op]. *)
Section ReadOperation.

Variable read_op : response_object -> Proc bytes.

Definition check_response_with (response : response_object) : Proc unit :=
  code <- Urllib.getcode response ;;
  if py_eq code (PyInt 200) then
    print [PyStr success_marker] ;;
    content <- read_op response ;;
    print [PyStr content_label; PyBytes content]
  else
    code' <- Urllib.getcode response ;;
    print [PyStr failure_label; code'] ;;
    exit 1.

Definition main_with : Proc unit :=
  response <- Urllib.urlopen url ;;
  check_response_with response.

Definition run_with (env : process_env) : process_result :=
  finish (main_with env initial_world).

End ReadOperation.

(** The sum of the counts of a [redirect_dict]. *)
Fixpoint total_visits (d : dict nat) : nat :=
  match d with
  | [] => 0%nat
  | (_, n) :: d' => (n + total_visits d')%nat
  end.

(** No URL of a [redirect_dict] was redirected to more than
    [max_repeats] times. *)
Definition within_repeats (d : dict nat) : Prop :=
  Forall (fun item => (snd item <= Urllib.max_repeats)%nat) d.

(** The status codes [http.client] accepts on a status line and does not
    skip. *)
Definition accepted_code (code : Z) : bool :=
  negb ((code <? 100)%Z || (999 <? code)%Z || (code =? 100)%Z).

(** An internet in which the host answers 200 to whoever reaches it
    directly, while the proxy the environment names for HTTPS is down. *)
Definition internet_with_dead_proxy (config : client_config)
    (_ : Request) : exchange :=
  match dict_get (proxies config) "https" with
  | Some _ => NoResponse ConnectionRefused
  | None => Reply 200 (encode "OK")
  end.


(* ===================================================================== *)
(** ** Strings *)
(* ===================================================================== *)

Section StringFacts.

Lemma append_length (s t : string) :
  String.length (s ++ t) = (String.length s + String.length t)%nat.
Proof.
  induction s as [|a s IH]; simpl; [reflexivity|].
  now rewrite IH.
Qed.

Lemma append_cancel_l (s t u : string) : s ++ t = s ++ u -> t = u.
Proof.
  induction s as [|a s IH]; simpl; intros H; [exact H|].
  injection H as H. now apply IH.
Qed.

Lemma append_assoc (s t u : string) : (s ++ t) ++ u = s ++ t ++ u.
Proof.
  induction s as [|a s IH]; simpl; [reflexivity|].
  now rewrite IH.
Qed.

Lemma decode_length (b : bytes) : String.length (decode b) = List.length b.
Proof.
  unfold decode, string_of_list_byte.
  induction b as [|c b IH]; simpl; [reflexivity|].
  now f_equal.
Qed.

Lemma repr_byte_length (q : ascii) (c : byte) :
  (1 <= String.length (repr_byte q c))%nat.
Proof.
  unfold repr_byte.
  repeat match goal with
         | |- context [if ?t then _ else _] => destruct t
         end; simpl; lia.
Qed.

Lemma repr_body_cons (q : ascii) (c : byte) (b : bytes) :
  repr_body q (c :: b) = repr_byte q c ++ repr_body q b.
Proof.
  unfold repr_body. destruct b as [|c' b]; simpl.
  - clear. induction (repr_byte q c) as [|a s IH]; simpl; [reflexivity|].
    now rewrite <- IH.
  - reflexivity.
Qed.

Lemma repr_body_length (q : ascii) (b : bytes) :
  (List.length b <= String.length (repr_body q b))%nat.
Proof.
  induction b as [|c b IH]; [simpl; lia|].
  rewrite repr_body_cons, append_length.
  pose proof (repr_byte_length q c). simpl. lia.
Qed.

(** [repr] of a [bytes] is at least three characters longer than the
    bytes: the [b] and the two quotes. *)
Lemma bytes_repr_length (b : bytes) :
  (List.length b + 3 <= String.length (bytes_repr b))%nat.
Proof.
  unfold bytes_repr. simpl. rewrite append_length.
  pose proof (repr_body_length (repr_quote b) b). simpl. lia.
Qed.

Lemma bytes_repr_not_raw (b : bytes) : bytes_repr b <> decode b.
Proof.
  intros H. apply (f_equal String.length) in H.
  rewrite decode_length in H.
  pose proof (bytes_repr_length b). lia.
Qed.


End StringFacts.

(* ===================================================================== *)
(** ** A [bytes] literal reads back *)
(* ===================================================================== *)

Section ReadBack.

Lemma unrepr_byte (quote : ascii) (c : byte) (rest : string) :
  quote = SQUOTE \/ quote = DQUOTE ->
  Literal.unrepr_body quote (repr_byte quote c ++ rest) =
  Literal.cons_byte (Some c) (Literal.unrepr_body quote rest).
Proof.
  intros [-> | ->]; destruct c; reflexivity.
Qed.

Lemma unrepr_repr_body (quote : ascii) (b : bytes) :
  quote = SQUOTE \/ quote = DQUOTE ->
  Literal.unrepr_body quote (repr_body quote b ++ chr quote) = Some b.
Proof.
  intros Q. induction b as [|c b IH].
  - destruct Q as [-> | ->]; reflexivity.
  - rewrite repr_body_cons, append_assoc, unrepr_byte by exact Q.
    now rewrite IH.
Qed.

Lemma repr_quote_cases (b : bytes) :
  repr_quote b = SQUOTE \/ repr_quote b = DQUOTE.
Proof.
  unfold repr_quote.
  destruct (has_char SQUOTE b && negb (has_char DQUOTE b)); auto.
Qed.

(** Reading back what [repr] wrote gives the bytes again. *)
Lemma bytes_unrepr_repr (b : bytes) :
  Literal.bytes_unrepr (bytes_repr b) = Some b.
Proof.
  unfold bytes_repr, Literal.bytes_unrepr.
  destruct (repr_quote_cases b) as [E | E]; rewrite E;
    apply unrepr_repr_body; auto.
Qed.

End ReadBack.

(* ===================================================================== *)
(** ** The text a run writes *)
(* ===================================================================== *)

Section TextFacts.

Lemma all_chars_app (p : ascii -> bool) (s t : string) :
  all_chars p (s ++ t) = all_chars p s && all_chars p t.
Proof.
  induction s as [|a s IH]; simpl; [reflexivity|].
  now rewrite IH, andb_assoc.
Qed.

Lemma count_char_app (a : ascii) (s t : string) :
  count_char a (s ++ t) = (count_char a s + count_char a t)%nat.
Proof.
  induction s as [|c s IH]; simpl; [reflexivity|].
  rewrite IH. lia.
Qed.

Lemma printable_no_newline (s : string) :
  all_chars printable s = true -> count_char LF s = 0%nat.
Proof.
  induction s as [|a s IH]; simpl; [reflexivity|].
  intros H. apply andb_true_iff in H as [Ha Hs].
  rewrite (IH Hs). destruct (Ascii.eqb_spec a LF) as [->|_]; [|reflexivity].
  discriminate Ha.
Qed.

Lemma append_cancel_r (s t u : string) : s ++ u = t ++ u -> s = t.
Proof.
  revert t. induction s as [|a s IH]; intros [|c t] H; simpl in H.
  - reflexivity.
  - apply (f_equal String.length) in H. simpl in H.
    rewrite append_length in H. lia.
  - apply (f_equal String.length) in H. simpl in H.
    rewrite append_length in H. lia.
  - injection H as -> H. f_equal. now apply IH.
Qed.

Lemma repr_byte_printable (quote : ascii) (c : byte) :
  quote = SQUOTE \/ quote = DQUOTE ->
  all_chars printable (repr_byte quote c) = true.
Proof. intros [-> | ->]; destruct c; reflexivity. Qed.


Lemma repr_body_printable (quote : ascii) (b : bytes) :
  quote = SQUOTE \/ quote = DQUOTE ->
  all_chars printable (repr_body quote b) = true.
Proof.
  intros Q. induction b as [|c b IH]; [reflexivity|].
  now rewrite repr_body_cons, all_chars_app, repr_byte_printable, IH.
Qed.

Lemma bytes_repr_printable (b : bytes) :
  all_chars printable (bytes_repr b) = true.
Proof.
  unfold bytes_repr. cbn [all_chars].
  rewrite all_chars_app, repr_body_printable by apply repr_quote_cases.
  destruct (repr_quote_cases b) as [-> | ->]; reflexivity.
Qed.


Lemma uint_str_printable (d : Decimal.uint) :
  all_chars printable (NilEmpty.string_of_uint d) = true.
Proof. induction d; simpl; auto. Qed.

Lemma int_str_printable (n : Z) : all_chars printable (int_str n) = true.
Proof.
  unfold int_str. destruct (Z.to_int n) as [d|d]; simpl;
    destruct d; try reflexivity; apply uint_str_printable.
Qed.

Lemma parse_int_str (n : Z) : parse_int (int_str n) = Some n.
Proof.
  unfold parse_int, int_str. rewrite NilZero.isi.
  - simpl. now rewrite DecimalZ.of_to.
  - destruct n; simpl; try discriminate.
    intros H. injection H as H. now apply Unsigned.to_uint_nonnil in H.
  - destruct n; simpl; try discriminate.
    intros H. injection H as H. now apply Unsigned.to_uint_nonnil in H.
Qed.

Lemma plain_no_squote (b : bytes) :
  forallb plain_byte b = true -> repr_quote b = SQUOTE.
Proof.
  intros H. unfold repr_quote.
  assert (E : has_char SQUOTE b = false).
  { induction b as [|c b IH]; [reflexivity|]. simpl in H |- *.
    apply andb_true_iff in H as [Hc Hb]. rewrite (IH Hb), orb_false_r.
    unfold plain_byte in Hc.
    destruct (Ascii.eqb (ascii_of_byte c) SQUOTE); [|reflexivity].
    now rewrite andb_false_r in Hc. }
  now rewrite E.
Qed.

Lemma plain_repr_body (b : bytes) :
  forallb plain_byte b = true -> repr_body SQUOTE b = decode b.
Proof.
  induction b as [|c b IH]; [reflexivity|]. intros H. simpl in H.
  apply andb_true_iff in H as [Hc Hb].
  rewrite repr_body_cons, (IH Hb).
  unfold decode, string_of_list_byte. simpl.
  destruct c; try discriminate Hc; reflexivity.
Qed.

End TextFacts.

(* ===================================================================== *)
(** ** Redirects *)
(* ===================================================================== *)

Section Redirects.

Variable net : Request -> exchange.


Lemma is_scheme_refl (u : string) :
  Urllib.is_scheme (Urllib.scheme_of u) u = true.
Proof. unfold Urllib.is_scheme. now destruct (Urllib.scheme_of u). Qed.

Lemma total_visits_visit (d : dict nat) (k : string) :
  total_visits (dict_set d k (Urllib.visits d k + 1)%nat) =
  (total_visits d + 1)%nat.
Proof.
  unfold Urllib.visits. induction d as [|[k' n] d IH]; simpl; [reflexivity|].
  destruct (String.eqb k' k); simpl; [lia|].
  rewrite IH. lia.
Qed.

Lemma within_repeats_visit (d : dict nat) (k : string) :
  within_repeats d ->
  (Urllib.visits d k < Urllib.max_repeats)%nat ->
  within_repeats (dict_set d k (Urllib.visits d k + 1)%nat).
Proof.
  unfold within_repeats, Urllib.visits.
  induction d as [|[k' n] d IH]; simpl; intros F L.
  - constructor; [simpl; lia | constructor].
  - inversion F as [|x l Hx Hl]; subst.
    destruct (String.eqb k' k); constructor; simpl; try lia; auto.
Qed.

Lemma total_visits_bound (d : dict nat) :
  within_repeats d ->
  (total_visits d <= Urllib.max_repeats * List.length d)%nat.
Proof.
  unfold within_repeats, Urllib.max_repeats.
  induction d as [|[k n] d IH]; simpl; intros F; [lia|].
  inversion F as [|x l Hx Hl]; subst. simpl in Hx.
  specialize (IH Hl). lia.
Qed.

(** A redirect that is not refused leaves a dictionary within the limits,
    with one more visit. *)
Lemma not_refused (d : dict nat) (newurl : string) :
  within_repeats d ->
  Urllib.refused (Some d) newurl = false ->
  within_repeats (Urllib.visit (Some d) newurl) /\
  total_visits (Urllib.visit (Some d) newurl) = (total_visits d + 1)%nat /\
  (total_visits d < 40)%nat.
Proof.
  intros F R. unfold Urllib.refused in R.
  apply orb_false_iff in R as [R1 R2].
  apply Nat.leb_gt in R1, R2. simpl.
  split; [now apply within_repeats_visit|].
  split; [apply total_visits_visit|].
  pose proof (total_visits_bound d F).
  unfold Urllib.max_repeats, Urllib.max_redirections in *. lia.
Qed.

(** More fuel than the loop detection leaves room for changes nothing. *)
Lemma director_open_more_fuel (fuel k : nat) :
  forall (d : dict nat) (req : Request),
    within_repeats d ->
    (40 <= total_visits d + fuel)%nat ->
    Urllib.director_open net (fuel + k) (Some d) req =
    Urllib.director_open net fuel (Some d) req.
Proof.
  induction fuel as [|fuel IH]; intros d req F T.
  - destruct k as [|k]; [reflexivity|]. cbn [Urllib.director_open Nat.add].
    destruct (Urllib.is_scheme Urllib.SchemeOther (full_url req));
      try reflexivity;
      destruct (Urllib.is_scheme Urllib.SchemeFtp (full_url req));
      try reflexivity;
      destruct (Urllib.http_begin (net req)) as [reply|e]; try reflexivity;
      destruct (is_2xx (Urllib.reply_code reply)); try reflexivity;
      destruct (Urllib.redirect_target reply) as [newurl|]; try reflexivity;
      destruct (negb (Urllib.allowed_scheme (Urllib.scheme_of newurl)));
      try reflexivity;
      destruct (Urllib.refused (Some d) newurl) eqn:R; try reflexivity;
      destruct (not_refused d newurl F R) as (_ & _ & L); lia.
  - cbn [Urllib.director_open Nat.add].
    destruct (Urllib.is_scheme Urllib.SchemeOther (full_url req));
      try reflexivity;
      destruct (Urllib.is_scheme Urllib.SchemeFtp (full_url req));
      try reflexivity;
      destruct (Urllib.http_begin (net req)) as [reply|e]; try reflexivity;
      destruct (is_2xx (Urllib.reply_code reply)); try reflexivity;
      destruct (Urllib.redirect_target reply) as [newurl|]; try reflexivity;
      destruct (negb (Urllib.allowed_scheme (Urllib.scheme_of newurl)));
      try reflexivity;
      destruct (Urllib.refused (Some d) newurl) eqn:R; try reflexivity;
      destruct (not_refused d newurl F R) as (F' & T' & _);
      rewrite IH; try reflexivity; try exact F'; rewrite T'; lia.
Qed.

Lemma director_open_first_hop (fuel k : nat) (req : Request) :
  (39 <= fuel)%nat ->
  Urllib.director_open net (S fuel + k) None req =
  Urllib.director_open net (S fuel) None req.
Proof.
  intros L. cbn [Urllib.director_open Nat.add].
  destruct (Urllib.is_scheme Urllib.SchemeOther (full_url req));
      try reflexivity;
      destruct (Urllib.is_scheme Urllib.SchemeFtp (full_url req));
      try reflexivity;
    destruct (Urllib.http_begin (net req)) as [reply|e]; try reflexivity;
    destruct (is_2xx (Urllib.reply_code reply)); try reflexivity;
    destruct (Urllib.redirect_target reply) as [newurl|]; try reflexivity;
    destruct (negb (Urllib.allowed_scheme (Urllib.scheme_of newurl)));
    try reflexivity;
    destruct (Urllib.refused None newurl); try reflexivity;
    (rewrite (director_open_more_fuel fuel k); [reflexivity | |]);
    try (simpl; lia);
    repeat constructor; simpl; unfold Urllib.max_repeats; lia.
Qed.

(** The 40 redirects [urlopen] allows for are never used up: with any
    larger allowance the outcome and the requests sent are the same. *)
Lemma director_open_fuel (k : nat) (req : Request) :
  Urllib.director_open net (40 + k) None req =
  Urllib.director_open net 40 None req.
Proof. apply (director_open_first_hop 39 k req). lia. Qed.


(** What [urlopen] raises is a [URLError], an [HTTPError] or a
    [BadStatusLine], never [SystemExit] and never an error of [read]. *)
Lemma director_open_raises (fuel : nat) :
  forall (visited : option (dict nat)) (req : Request)
         (e : exn) (l : list Request),
    Urllib.director_open net fuel visited req = (Raised e, l) ->
    (exists reason, e = URLError reason) \/
    (exists code, e = HTTPError code) \/
    e = BadStatusLine.
Proof.
  assert (B : forall x e, Urllib.http_begin x = inr e ->
              (exists reason, e = URLError reason) \/
              (exists code, e = HTTPError code) \/ e = BadStatusLine).
  { intros x e. unfold Urllib.http_begin, Urllib.check_status.
    destruct x; simpl;
      repeat match goal with
             | |- context [if ?t then _ else _] => destruct t
             end; intros H; try discriminate H; injection H as <-; eauto. }
  induction fuel as [|fuel IH]; intros visited req e l;
    cbn [Urllib.director_open];
    destruct (Urllib.is_scheme Urllib.SchemeOther (full_url req));
    try (intros H; injection H as <- _; eauto; fail);
    destruct (Urllib.is_scheme Urllib.SchemeFtp (full_url req));
    try (destruct (net req); simpl; intros H; try discriminate H;
         injection H as <- _; eauto; fail);
    destruct (Urllib.http_begin (net req)) as [reply|e'] eqn:Hb;
    try (intros H; injection H as <- _; now apply (B _ _ Hb));
    destruct (is_2xx (Urllib.reply_code reply)); try discriminate;
    destruct (Urllib.redirect_target reply) as [newurl|];
    try (intros H; injection H as <- _; eauto; fail);
    destruct (negb (Urllib.allowed_scheme (Urllib.scheme_of newurl)));
    try (intros H; injection H as <- _; eauto; fail);
    destruct (Urllib.refused visited newurl);
    try (intros H; injection H as <- _; eauto; fail).
  all: intros H;
    destruct (Urllib.director_open net fuel
                (Some (Urllib.visit visited newurl))
                (mkRequest newurl None)) as [o l'] eqn:D;
    simpl in H; injection H as -> _; exact (IH _ _ _ _ D).
Qed.




End Redirects.

(* ===================================================================== *)
(** ** Answers that end the call at once *)
(* ===================================================================== *)

Section DirectAnswers.

Variable net : Request -> exchange.
Variable fuel : nat.
Variable visited : option (dict nat).
Variable req : Request.
Hypothesis over_https : Urllib.scheme_of (full_url req) = Urllib.SchemeHttps.

Lemma not_other : Urllib.is_scheme Urllib.SchemeOther (full_url req) = false.
Proof. unfold Urllib.is_scheme. now rewrite over_https. Qed.

Lemma not_ftp : Urllib.is_scheme Urllib.SchemeFtp (full_url req) = false.
Proof. unfold Urllib.is_scheme. now rewrite over_https. Qed.

Lemma director_open_reply (code : Z) (body : bytes) :
  net req = Reply code body ->
  Urllib.director_open net fuel visited req =
  (if accepted_code code then
     if is_2xx code then Normal (HttpObj (mkResponse code body))
     else Raised (HTTPError code)
   else Raised BadStatusLine, [req]).
Proof.
  intros H. destruct fuel; cbn [Urllib.director_open];
    rewrite not_other, not_ftp, H;
    unfold Urllib.http_begin, Urllib.check_status, accepted_code; cbn [Urllib.reply_code];
    destruct ((code <? 100)%Z || (999 <? code)%Z || (code =? 100)%Z);
    cbn [negb Urllib.reply_code Urllib.reply_body];
    try reflexivity; destruct (is_2xx code); try reflexivity;
    unfold Urllib.redirect_target;
    cbn [Urllib.reply_code Urllib.reply_location];
    destruct (Urllib.is_redirect_code code); reflexivity.
Qed.

Lemma director_open_truncated (code : Z) (failure : read_error) :
  net req = Truncated code failure ->
  Urllib.director_open net fuel visited req =
  (if accepted_code code then
     if is_2xx code then Normal (HttpObj (mkHTTPResponse code (inr failure)))
     else Raised (HTTPError code)
   else Raised BadStatusLine, [req]).
Proof.
  intros H. destruct fuel; cbn [Urllib.director_open];
    rewrite not_other, not_ftp, H;
    unfold Urllib.http_begin, Urllib.check_status, accepted_code; cbn [Urllib.reply_code];
    destruct ((code <? 100)%Z || (999 <? code)%Z || (code =? 100)%Z);
    cbn [negb Urllib.reply_code Urllib.reply_body];
    try reflexivity; destruct (is_2xx code); try reflexivity;
    unfold Urllib.redirect_target;
    cbn [Urllib.reply_code Urllib.reply_location];
    destruct (Urllib.is_redirect_code code); reflexivity.
Qed.

Lemma director_open_no_response (reason : transport_error) :
  net req = NoResponse reason ->
  Urllib.director_open net fuel visited req = (Raised (URLError reason), [req]).
Proof.
  intros H. destruct fuel; cbn [Urllib.director_open];
    rewrite not_other, not_ftp, H; reflexivity.
Qed.


End DirectAnswers.

(* ===================================================================== *)
(** ** The steps of a run *)
(* ===================================================================== *)

Section Steps.

Variable env : process_env.

Lemma bind_normal {A B : Type} (c : Proc A) (k : A -> Proc B)
    (w w' : world) (a : A) :
  c env w = (Normal a, w') -> bind c k env w = k a env w'.
Proof. intros H. unfold bind. now rewrite H. Qed.

Lemma bind_raised {A B : Type} (c : Proc A) (k : A -> Proc B)
    (w w' : world) (e : exn) :
  c env w = (Raised e, w') -> bind c k env w = (Raised e, w').
Proof. intros H. unfold bind. now rewrite H. Qed.

Lemma url_over_https :
  Urllib.scheme_of (full_url probe_request) = Urllib.SchemeHttps.
Proof. reflexivity. Qed.

(** [urlopen] makes one call and leaves standard output alone; how it ends
    and what it sends is decided by the answers of the network. *)
Lemma urlopen_chain :
  Urllib.urlopen url env initial_world =
  (fst (chain env), opened_with (snd (chain env))).
Proof.
  cbv beta iota zeta delta
    [Urllib.urlopen bind record_call ask_network chain probe_request].
  destruct (Urllib.director_open (network env) 40 None (mkRequest url None))
    as [outcome l].
  reflexivity.
Qed.

Lemma urlopen_outcome (o : completion response_object) (w : world) :
  Urllib.urlopen url env initial_world = (o, w) ->
  fst (chain env) = o /\ w = opened_with (snd (chain env)).
Proof. rewrite urlopen_chain. intros H. injection H as <- <-. auto. Qed.

(** A run continues with [check_response] exactly when [urlopen]
    returns. *)
Lemma run_returned (o : response_object) (w : world) :
  Urllib.urlopen url env initial_world = (Normal o, w) ->
  run env = finish (check_response o env w) /\
  w = opened_with (snd (chain env)).
Proof.
  intros H. split; [|exact (proj2 (urlopen_outcome _ _ H))].
  unfold run, main. now rewrite (bind_normal _ _ _ _ _ H).
Qed.

Lemma run_raised (e : exn) (w : world) :
  Urllib.urlopen url env initial_world = (Raised e, w) ->
  run env = mkResult "" (Some e) 1 [CallUrlOpen probe_request].
Proof.
  intros H. destruct (urlopen_outcome _ _ H) as [C ->].
  unfold run, main. rewrite (bind_raised _ _ _ _ _ H).
  unfold chain in C.
  destruct (Urllib.director_open (network env) 40 None probe_request)
    as [o l] eqn:D. cbn [fst] in C. subst o.
  destruct (director_open_raises _ _ _ _ _ _ D)
    as [[reason ->]|[[code ->]| ->]]; reflexivity.
Qed.

Variable l : list Request.

(** The success branch, the body arriving whole. *)
Lemma check_response_200 (response : HTTPResponse) (body : bytes) :
  status response = 200 ->
  body_stream response = inl body ->
  finish (check_response (HttpObj response) env (opened_with l)) =
  mkResult (line success_marker ++
            line (content_label ++ " " ++ bytes_repr body))
           None 0 [CallUrlOpen probe_request; CallGetCode; CallRead].
Proof.
  intros H B. unfold check_response, Urllib.getcode, Urllib.read, print.
  unfold bind, record_call, write_stdout, ret, opened_with. simpl.
  rewrite H, B. simpl. unfold print_text, line. simpl.
  now rewrite append_assoc.
Qed.

(** The success branch, the body breaking. *)
Lemma check_response_broken (response : HTTPResponse) (failure : read_error) :
  status response = 200 ->
  body_stream response = inr failure ->
  finish (check_response (HttpObj response) env (opened_with l)) =
  mkResult (line success_marker) (Some (exn_of_read_error failure)) 1
           [CallUrlOpen probe_request; CallGetCode; CallRead].
Proof.
  intros H B. unfold check_response, Urllib.getcode, Urllib.read, print.
  unfold bind, record_call, write_stdout, ret, raise, opened_with. simpl.
  rewrite H, B. simpl. now destruct failure.
Qed.

(** The failure branch. *)
Lemma check_response_other (response : HTTPResponse) :
  status response <> 200 ->
  finish (check_response (HttpObj response) env (opened_with l)) =
  mkResult (line (failure_label ++ " " ++ int_str (status response)))
           None 1
           [CallUrlOpen probe_request; CallGetCode; CallGetCode; CallExit 1].
Proof.
  intros H. unfold check_response, Urllib.getcode, exit, print.
  unfold bind, record_call, write_stdout, ret, raise, opened_with. simpl.
  apply Z.eqb_neq in H. rewrite H. reflexivity.
Qed.

(** The failure branch, for an object with no status code. *)
Lemma check_response_none (stream : bytes + read_error) :
  finish (check_response (AddInfoUrl stream) env (opened_with l)) =
  mkResult (line (failure_label ++ " None")) None 1
           [CallUrlOpen probe_request; CallGetCode; CallGetCode; CallExit 1].
Proof. reflexivity. Qed.

End Steps.

Section DirectRuns.

Variable env : process_env.

Lemma chain_reply (code : Z) (body : bytes) :
  network env probe_request = Reply code body ->
  chain env =
  (if accepted_code code then
     if is_2xx code then Normal (HttpObj (mkResponse code body))
     else Raised (HTTPError code)
   else Raised BadStatusLine, [probe_request]).
Proof. apply director_open_reply, url_over_https. Qed.





Lemma run_reply_error (code : Z) (body : bytes) :
  network env probe_request = Reply code body ->
  accepted_code code = true ->
  is_2xx code = false ->
  run env = mkResult "" (Some (HTTPError code)) 1 [CallUrlOpen probe_request].
Proof.
  intros H A E. apply (run_raised env _ opened).
  rewrite urlopen_chain, (chain_reply _ _ H). now rewrite A, E.
Qed.


Lemma run_no_response (reason : transport_error) :
  network env probe_request = NoResponse reason ->
  run env =
  mkResult "" (Some (URLError reason)) 1 [CallUrlOpen probe_request].
Proof.
  intros H. apply (run_raised env _ opened).
  rewrite urlopen_chain. unfold chain.
  now rewrite (director_open_no_response _ _ _ _ url_over_https _ H).
Qed.

End DirectRuns.


Section SentRequests.

Variable env : process_env.

(** The script sends nothing itself. *)
Lemma check_response_sent (o : response_object) (l : list Request) :
  sent (snd (check_response o env (opened_with l))) = l.
Proof.
  unfold check_response, Urllib.getcode, Urllib.read, print, exit.
  unfold bind, record_call, write_stdout, ret, raise, opened_with.
  destruct o as [r|stream]; simpl; [|reflexivity].
  destruct (status r =? 200)%Z; simpl; [|reflexivity].
  destruct (body_stream r); reflexivity.
Qed.

Lemma sent_requests_chain : sent_requests env = snd (chain env).
Proof.
  unfold sent_requests, main. pose proof (urlopen_chain env) as U.
  destruct (fst (chain env)) as [o|e].
  - rewrite (bind_normal env _ _ _ _ _ U). apply check_response_sent.
  - now rewrite (bind_raised env _ _ _ _ _ U).
Qed.

Lemma urlopen_fst :
  fst (Urllib.urlopen url env initial_world) = fst (chain env).
Proof.
  rewrite urlopen_chain. generalize (chain env). intros c. reflexivity.
Qed.


End SentRequests.

(* ===================================================================== *)
(** ** Properties of a run *)
(* ===================================================================== *)

(** Case analysis on what [urlopen] does and on the branch the script
    takes, rewriting [run env] to the result of the case. *)
Ltac by_outcome env :=
  let U := fresh "U" in
  let O := fresh "O" in
  let R := fresh "R" in
  let response := fresh "response" in
  let stream := fresh "stream" in
  let e := fresh "e" in
  let E := fresh "E200" in
  let N := fresh "N200" in
  let body := fresh "body" in
  let failure := fresh "failure" in
  let S := fresh "Hbody" in
  pose proof (urlopen_chain env) as U;
  destruct (fst (chain env)) as [[response|stream]|e] eqn:O;
  try rewrite O in U;
  [ destruct (run_returned env _ _ U) as [R _]; rewrite R;
    destruct (Z.eq_dec (status response) 200) as [E|N];
    [ destruct (body_stream response) as [body|failure] eqn:S;
      [ rewrite (check_response_200 env _ response body E S)
      | rewrite (check_response_broken env _ response failure E S) ]
    | rewrite (check_response_other env _ response N) ]
  | destruct (run_returned env _ _ U) as [R _]; rewrite R;
    rewrite check_response_none
  | rewrite (run_raised env _ _ U) ].

Lemma not_Contains_empty (sub : string) :
  sub <> "" -> ~ Contains "" sub.
Proof.
  intros N [pre [post H]]. apply (f_equal String.length) in H.
  rewrite !append_length in H. simpl in H.
  destruct sub; [now apply N|]. simpl in H. lia.
Qed.

Lemma prefix_append (s t : string) : prefix s (s ++ t) = true.
Proof.
  induction s as [|a s IH]; simpl; [now destruct t|].
  destruct (ascii_dec a a) as [_|N]; [exact IH | now destruct N].
Qed.

Lemma occurs_prefix (sub s : string) :
  prefix sub s = true -> occurs sub s = true.
Proof. intros H. destruct s; cbn [occurs]; now rewrite H. Qed.

Lemma Contains_occurs (s sub : string) : Contains s sub -> occurs sub s = true.
Proof.
  intros (pre & post & ->). induction pre as [|a pre IH].
  - apply occurs_prefix. exact (prefix_append sub post).
  - change (occurs sub (String a (pre ++ sub ++ post)) = true).
    cbn [occurs]. rewrite IH. apply orb_true_r.
Qed.

Lemma plain_body_contained (pre post : string) (body : bytes) :
  forallb plain_byte body = true ->
  Contains (pre ++ bytes_repr body ++ post) (decode body).
Proof.
  intros P. unfold bytes_repr. rewrite (plain_no_squote body P).
  rewrite (plain_repr_body body P).
  exists (pre ++ String "b" (chr SQUOTE)), (chr SQUOTE ++ post).
  rewrite append_assoc. f_equal. cbn [append chr].
  now rewrite append_assoc.
Qed.

(** C1: when the GET returns a response whose status code is 200 and the
    body of that response arrives whole (the empty body included),
    standard output is the success marker line followed by the content
    line, the content line is the label followed by the [repr] of the
    body as a [bytes] object (which holds the text of the body as it is
    when the body is printable ASCII with no single quote and no
    backslash), and the process ends normally with exit status 0, without
    a call of [exit]. *)
Theorem C1_status_200_prints_success_exit_0
    (env : process_env) (response : HTTPResponse) (w : world)
    (body : bytes) :
  Urllib.urlopen url env initial_world = (Normal (HttpObj response), w) ->
  status response = 200 ->
  body_stream response = inl body ->
  out (run env) =
    line "Request successful!" ++
    line ("Response content: " ++ bytes_repr body) /\
  (forallb plain_byte body = true ->
   Contains (out (run env)) (decode body)) /\
  exit_status (run env) = 0 /\
  traceback (run env) = None /\
  (forall code, ~ In (CallExit code) (trace (run env))).
Proof.
  intros U H200 B. destruct (run_returned env _ _ U) as [R ->].
  rewrite R, (check_response_200 env _ response body H200 B).
  cbn [out exit_status traceback trace].
  split; [reflexivity|]. split; [|split; [reflexivity|split; [reflexivity|]]].
  - intros P.
    apply (plain_body_contained
             (line success_marker ++ content_label ++ " ") (chr LF) body P).
  - intros code [F|[F|[F|[]]]]; discriminate.
Qed.

Lemma C1_witness_empty_body :
  let env := bare_env (Reply 200 []) in
  status (mkResponse 200 []) = 200 /\
  out (run env) = line "Request successful!" ++ line "Response content: b''" /\
  exit_status (run env) = 0.
Proof.
  intros env. split; [reflexivity|].
  destruct (C1_status_200_prints_success_exit_0 env (mkResponse 200 [])
              opened [])
    as (Hout & _ & Hexit & _);
    [vm_compute; reflexivity | reflexivity | reflexivity |].
  split; [exact Hout | exact Hexit].
Defined.

(** C1, as the claim has it, fails in two ways.  A response with status
    200 whose body breaks while it is read leaves the success marker
    alone on standard output and exit status 1.  A body with a byte that
    is not printable is not contained in the content line. *)
Lemma C1_counterexample_broken_body :
  let env := bare_env (Truncated 200 BodyIncomplete) in
  let response := mkHTTPResponse 200 (inr BodyIncomplete) in
  let env' := bare_env (Reply 200 [x00]) in
  (Urllib.urlopen url env initial_world = (Normal (HttpObj response), opened) /\
   status response = 200 /\
   out (run env) = line "Request successful!" /\
   traceback (run env) = Some IncompleteRead /\
   exit_status (run env) = 1) /\
  (Urllib.urlopen url env' initial_world =
     (Normal (HttpObj (mkResponse 200 [x00])), opened) /\
   exit_status (run env') = 0 /\
   ~ Contains (out (run env')) (decode [x00])).
Proof.
  intros env response env'. split.
  - repeat split; vm_compute; reflexivity.
  - split; [vm_compute; reflexivity|]. split; [vm_compute; reflexivity|].
    intros F. apply Contains_occurs in F. vm_compute in F. discriminate F.
Qed.



(** C3: the test is equality with 200.  Among the responses the GET
    returns, the run takes the success path (success marker first, the
    body read) exactly when the status code is 200, and the failure path
    (failure label first, [exit(1)], exit status 1) exactly when it is
    not; exit status 0 occurs for status code 200 only.  With status code
    201 the run prints the failure message with 201 and ends with exit
    status 1. *)
Theorem C3_exact_equality_201_fails
    (env : process_env) (response : HTTPResponse) (w : world) :
  Urllib.urlopen url env initial_world = (Normal (HttpObj response), w) ->
  (prefix "Request successful!" (out (run env)) = true <->
   status response = 200) /\
  (In CallRead (trace (run env)) <-> status response = 200) /\
  (prefix "Request failed. Status code:" (out (run env)) = true <->
   status response <> 200) /\
  (In (CallExit 1) (trace (run env)) <-> status response <> 200) /\
  (exit_status (run env) = 0 -> status response = 200) /\
  (status response <> 200 -> exit_status (run env) = 1) /\
  (status response = 201 ->
   out (run env) = line "Request failed. Status code: 201" /\
   prefix "Request successful!" (out (run env)) = false /\
   ~ In CallRead (trace (run env)) /\
   exit_status (run env) = 1).
Proof.
  intros U. destruct (run_returned env _ _ U) as [R ->]. rewrite R.
  destruct (Z.eq_dec (status response) 200) as [E|N].
  - assert (X : exists o t s,
               finish (check_response (HttpObj response) env
                         (opened_with (snd (chain env)))) =
               mkResult (line success_marker ++ o) t s
                        [CallUrlOpen probe_request; CallGetCode; CallRead]).
    { destruct (body_stream response) as [body|failure] eqn:B.
      - rewrite (check_response_200 env _ response body E B). eauto.
      - rewrite (check_response_broken env _ response failure E B).
        exists "". eexists. eexists. reflexivity. }
    destruct X as (o & t & s & ->). cbn [out exit_status traceback trace].
    split; [split; [intros _; exact E | intros _; reflexivity]|].
    split; [split; [intros _; exact E | intros _; simpl; tauto]|].
    split; [split; [intros F; vm_compute in F; discriminate F
                   | intros F; now destruct (F E)]|].
    split; [split; [intros [F|[F|[F|[]]]]; discriminate
                   | intros F; now destruct (F E)]|].
    split; [intros _; exact E|].
    split; [intros F; now destruct (F E)|].
    intros F. exfalso. lia.
  - rewrite (check_response_other env _ response N).
    cbn [out exit_status traceback trace].
    split; [split; [intros F; vm_compute in F; discriminate F
                   | intros F; now destruct (N F)]|].
    split; [split; [intros [F|[F|[F|[F|[]]]]]; discriminate
                   | intros F; now destruct (N F)]|].
    split; [split; [intros _; exact N | intros _; reflexivity]|].
    split; [split; [intros _; exact N | intros _; simpl; tauto]|].
    split; [intros F; discriminate F|].
    split; [intros _; reflexivity|].
    intros F. rewrite F.
    split; [reflexivity|]. split; [reflexivity|].
    split; [intros [G|[G|[G|[G|[]]]]]; discriminate | reflexivity].
Qed.

Lemma C3_witness_201 :
  let env := bare_env (Reply 201 (encode "Created")) in
  status (mkResponse 201 (encode "Created")) = 201 /\
  out (run env) = line "Request failed. Status code: 201" /\
  exit_status (run env) = 1.
Proof.
  intros env. split; [reflexivity|].
  destruct (C3_exact_equality_201_fails env
              (mkResponse 201 (encode "Created")) opened)
    as (_ & _ & _ & _ & _ & _ & H); [vm_compute; reflexivity|].
  destruct H as (Hout & _ & _ & Hexit); [reflexivity|].
  split; [exact Hout | exact Hexit].
Defined.

(** C4: with an endpoint that answers 404, and likewise 500, [urlopen]
    raises [HTTPError] and nobody catches it: nothing is written to
    standard output, so no failure marker and no status code appear there;
    the traceback of the error goes to standard error and the exit status
    is 1. *)
Theorem C4_status_404_500_uncaught_error :
  let r404 := run (bare_env (Reply 404 (encode "Not Found"))) in
  let r500 := run (bare_env (Reply 500 (encode "Internal Server Error"))) in
  (out r404 = "" /\ ~ Contains (out r404) "404" /\
   traceback r404 = Some (HTTPError 404) /\ exit_status r404 = 1) /\
  (out r500 = "" /\ ~ Contains (out r500) "500" /\
   traceback r500 = Some (HTTPError 500) /\ exit_status r500 = 1).
Proof.
  cbv zeta.
  rewrite (run_reply_error (bare_env (Reply 404 (encode "Not Found")))
             404 (encode "Not Found") eq_refl eq_refl eq_refl).
  rewrite (run_reply_error
             (bare_env (Reply 500 (encode "Internal Server Error")))
             500 (encode "Internal Server Error") eq_refl eq_refl eq_refl).
  cbn [out exit_status traceback].
  repeat split; apply not_Contains_empty; discriminate.
Qed.

(** C5: when the transport gives no response (name resolution, TLS
    handshake, refused connection, timeout), the error [urlopen] raises is
    not caught and the exit status is 1, never 0; nothing is written to
    standard output. *)
Theorem C5_transport_failure_exit_nonzero
    (env : process_env) (reason : transport_error) :
  network env probe_request = NoResponse reason ->
  exit_status (run env) <> 0 /\
  exit_status (run env) = 1 /\
  traceback (run env) = Some (URLError reason) /\
  out (run env) = "".
Proof.
  intros H. rewrite (run_no_response env reason H). simpl.
  repeat split. discriminate.
Qed.

Lemma C5_witness_refused :
  let env := bare_env (NoResponse ConnectionRefused) in
  network env probe_request = NoResponse ConnectionRefused /\
  exit_status (run env) <> 0.
Proof.
  intros env. split; [reflexivity|].
  exact (proj1 (C5_transport_failure_exit_nonzero env ConnectionRefused
                  eq_refl)).
Defined.

(** Two runs in which [urlopen] ends the same way show the same. *)
Lemma run_determined (env1 env2 : process_env) :
  fst (chain env1) = fst (chain env2) -> run env1 = run env2.
Proof.
  intros H. pose proof (urlopen_chain env2) as U2. rewrite <- H in U2.
  by_outcome env1.
  - destruct (run_returned env2 _ _ U2) as [-> _].
    now rewrite (check_response_200 env2 _ response body E200 Hbody).
  - destruct (run_returned env2 _ _ U2) as [-> _].
    now rewrite (check_response_broken env2 _ response failure E200 Hbody).
  - destruct (run_returned env2 _ _ U2) as [-> _].
    now rewrite (check_response_other env2 _ response N200).
  - destruct (run_returned env2 _ _ U2) as [-> _].
    now rewrite check_response_none.
  - now rewrite (run_raised env2 _ _ U2).
Qed.

(** C6: what a run shows (standard output, traceback, exit status) and
    the calls it makes are decided by how the script's one [urlopen] ends:
    two runs in which it returns the same response, or raises the same
    error, agree on all of it.  The script reads no command-line argument
    and no configuration file: two runs with the same environment
    variables and the same internet agree on what they show and on the
    requests they send, whatever their arguments and configuration files
    are.  The one call is for the fixed URL in every run. *)
Theorem C6_behaviour_depends_on_response_only (env1 env2 : process_env) :
  (fst (Urllib.urlopen url env1 initial_world) =
   fst (Urllib.urlopen url env2 initial_world) ->
   run env1 = run env2) /\
  (environ env1 = environ env2 ->
   internet env1 = internet env2 ->
   run env1 = run env2 /\ sent_requests env1 = sent_requests env2) /\
  urlopen_calls (trace (run env1)) =
    [mkRequest "https://dl.espressif.com/" None].
Proof.
  split; [|split].
  - rewrite !urlopen_fst. apply run_determined.
  - intros E I.
    assert (C : chain env1 = chain env2).
    { unfold chain, network. now rewrite E, I. }
    split; [apply run_determined; now rewrite C|].
    now rewrite !sent_requests_chain, C.
  - by_outcome env1; reflexivity.
Qed.

Lemma C6_witness_arguments_ignored :
  let server := fun (_ : client_config) (_ : Request) =>
                  Reply 200 (encode "OK") in
  let env1 := mkProcessEnv [] [("HOME", "/root")] None server in
  let env2 :=
    mkProcessEnv ["try_https.py"; "--url"; "http://localhost/"]
                 [("HOME", "/root")]
                 (Some "url = http://localhost/") server in
  environ env1 = environ env2 /\
  internet env1 = internet env2 /\
  run env1 = run env2.
Proof.
  intros server env1 env2. split; [reflexivity|]. split; [reflexivity|].
  exact (proj1 (proj1 (proj2 (C6_behaviour_depends_on_response_only
                                env1 env2)) eq_refl eq_refl)).
Defined.

(** C6, as the claim has it, fails: an environment variable changes what
    the run sends and shows.  With [https_proxy] set, [urllib] goes
    through the proxy it names; when that proxy is down the run ends with
    a traceback and exit status 1, while the same script with the same
    arguments, the same configuration and the same internet, but without
    the variable, prints the success marker and ends with 0. *)
Lemma C6_counterexample_https_proxy :
  let env1 := mkProcessEnv [] [] None internet_with_dead_proxy in
  let env2 :=
    mkProcessEnv [] [("https_proxy", "http://127.0.0.1:9")] None
                 internet_with_dead_proxy in
  argv env1 = argv env2 /\
  config_file env1 = config_file env2 /\
  internet env1 = internet env2 /\
  getproxies_environment (environ env1) = [] /\
  getproxies_environment (environ env2) =
    [("https", "http://127.0.0.1:9")] /\
  out (run env1) =
    line "Request successful!" ++ line "Response content: b'OK'" /\
  exit_status (run env1) = 0 /\
  out (run env2) = "" /\
  exit_status (run env2) = 1 /\
  run env1 <> run env2.
Proof.
  intros env1 env2.
  repeat (split; [vm_compute; reflexivity|]).
  intros F. apply (f_equal exit_status) in F. vm_compute in F.
  discriminate F.
Qed.












(* ===================================================================== *)
(** ** Further properties of a run *)
(* ===================================================================== *)

(** X1: when the run ends, the exit status is 0 exactly when [urlopen]
    returns an HTTP response with status code 200 whose body is read to
    the end; in every other case it is 1. *)
Theorem X1_exit_status_zero_iff_200_and_body_read (env : process_env) :
  (exit_status (run env) = 0 <->
   exists response w body,
     Urllib.urlopen url env initial_world = (Normal (HttpObj response), w) /\
     status response = 200 /\
     body_stream response = inl body) /\
  (exit_status (run env) <> 0 -> exit_status (run env) = 1).
Proof.
  by_outcome env; cbn [exit_status];
    (split; [split|]); try (intros F; discriminate F);
    try (intros _; reflexivity); try (intros F; now destruct F).
  - intros _. exists response, (opened_with (snd (chain env))), body. auto.
  - intros (r & w & b & V & _ & B). rewrite U in V. injection V as <- _.
    congruence.
  - intros (r & w & b & V & S & _). rewrite U in V. injection V as <- _.
    contradiction.
  - intros (r & w & b & V & _). rewrite U in V. discriminate V.
  - intros (r & w & b & V & _). rewrite U in V. discriminate V.
Qed.

Lemma X1_witness_broken_body :
  let env := bare_env (Truncated 200 BodyReset) in
  exit_status (run env) <> 0 /\ exit_status (run env) = 1.
Proof.
  intros env.
  assert (N : exit_status (run env) <> 0) by (vm_compute; discriminate).
  split; [exact N|].
  exact (proj2 (X1_exit_status_zero_iff_200_and_body_read env) N).
Defined.

(** X2: a run leaves standard output empty exactly when [urlopen] raises.
    A traceback comes together with text on standard output exactly when
    [urlopen] returned an HTTP response with status code 200 and the body
    broke while it was read; that text is the success marker line.  A
    traceback never stems from [SystemExit]. *)
Theorem X2_output_or_traceback (env : process_env) :
  (out (run env) = "" <->
   exists e w, Urllib.urlopen url env initial_world = (Raised e, w)) /\
  (traceback (run env) <> None /\ out (run env) <> "" <->
   exists response w failure,
     Urllib.urlopen url env initial_world = (Normal (HttpObj response), w) /\
     status response = 200 /\
     body_stream response = inr failure) /\
  (traceback (run env) <> None -> out (run env) <> "" ->
   out (run env) = line "Request successful!") /\
  (forall code, traceback (run env) <> Some (SystemExit code)).
Proof.
  by_outcome env; cbn [out traceback].
  - split; [|split; [|split]].
    + split; [intros F; discriminate F|].
      intros (x & w & V). rewrite U in V. discriminate V.
    + split; [intros [F _]; now destruct F|].
      intros (r & w & f & V & _ & B). rewrite U in V. injection V as <- _.
      congruence.
    + intros F. now destruct F.
    + discriminate.
  - split; [|split; [|split]].
    + split; [intros F; discriminate F|].
      intros (x & w & V). rewrite U in V. discriminate V.
    + split; [intros _|intros _; split; discriminate].
      now exists response, (opened_with (snd (chain env))), failure.
    + reflexivity.
    + intros code. now destruct failure.
  - split; [|split; [|split]].
    + split; [intros F; discriminate F|].
      intros (x & w & V). rewrite U in V. discriminate V.
    + split; [intros [F _]; now destruct F|].
      intros (r & w & f & V & S & _). rewrite U in V. injection V as <- _.
      contradiction.
    + intros F. now destruct F.
    + discriminate.
  - split; [|split; [|split]].
    + split; [intros F; discriminate F|].
      intros (x & w & V). rewrite U in V. discriminate V.
    + split; [intros [F _]; now destruct F|].
      intros (r & w & f & V & _). rewrite U in V. discriminate V.
    + intros F. now destruct F.
    + discriminate.
  - split; [|split; [|split]].
    + split; [intros _; eauto | reflexivity].
    + split; [intros [_ F]; now destruct F|].
      intros (r & w & f & V & _). rewrite U in V. discriminate V.
    + intros _ F. now destruct F.
    + intros code F. injection F as ->.
      destruct (urlopen_outcome env _ _ U) as [C _]. unfold chain in C.
      destruct (Urllib.director_open (network env) 40 None probe_request)
        as [o l] eqn:D. cbn [fst] in C. subst o.
      destruct (director_open_raises _ _ _ _ _ _ D)
        as [[reason F]|[[c F]|F]]; discriminate F.
Qed.

(** X3: the calls of a run form one of four sequences: [urlopen] alone
    (it raised); [urlopen], [getcode], [read] with exit status 0 (status
    200, the body read); the same three calls with a traceback and exit
    status 1 (status 200, [read] raised); [urlopen], [getcode], [getcode],
    [exit(1)] (anything else).  So [exit] is only ever called with 1, as
    the last call and never together with [read]. *)
Theorem X3_call_sequences (env : process_env) :
  (trace (run env) = [CallUrlOpen probe_request] /\
   exit_status (run env) = 1 /\ traceback (run env) <> None) \/
  (trace (run env) = [CallUrlOpen probe_request; CallGetCode; CallRead] /\
   exit_status (run env) = 0 /\ traceback (run env) = None) \/
  (trace (run env) = [CallUrlOpen probe_request; CallGetCode; CallRead] /\
   exit_status (run env) = 1 /\ traceback (run env) <> None) \/
  (trace (run env) =
     [CallUrlOpen probe_request; CallGetCode; CallGetCode; CallExit 1] /\
   exit_status (run env) = 1 /\ traceback (run env) = None).
Proof.
  by_outcome env; cbn [trace exit_status traceback].
  - right. left. now repeat split.
  - right. right. left. repeat split. discriminate.
  - right. right. right. now repeat split.
  - right. right. right. now repeat split.
  - left. repeat split. discriminate.
Qed.

(** X4: the [repr] of a body consists of printable ASCII characters only,
    whatever bytes the body holds: control bytes, newlines among them, and
    bytes from 127 on appear as escapes. *)
Theorem X4_bytes_repr_printable (b : bytes) :
  all_chars printable (bytes_repr b) = true /\
  count_char LF (bytes_repr b) = 0%nat.
Proof.
  split; [apply bytes_repr_printable|].
  apply printable_no_newline, bytes_repr_printable.
Qed.

(** X5: standard output holds exactly two lines when [urlopen] returns an
    HTTP response with status code 200 whose body is read to the end,
    exactly one line when it returns anything else (the failure line, or
    the success marker line when the body breaks), and nothing when it
    raises; no body can add a line. *)
Theorem X5_line_count (env : process_env) :
  count_char LF (out (run env)) =
  match fst (Urllib.urlopen url env initial_world) with
  | Raised _ => 0%nat
  | Normal (AddInfoUrl _) => 1%nat
  | Normal (HttpObj response) =>
      if (status response =? 200)%Z then
        match body_stream response with
        | inl _ => 2%nat
        | inr _ => 1%nat
        end
      else 1%nat
  end.
Proof.
  rewrite urlopen_fst. by_outcome env; cbn [out].
  - rewrite E200. unfold line. rewrite !count_char_app.
    rewrite (printable_no_newline _ (bytes_repr_printable body)).
    reflexivity.
  - rewrite E200. reflexivity.
  - apply Z.eqb_neq in N200. rewrite N200.
    unfold line. rewrite !count_char_app.
    rewrite (printable_no_newline _ (int_str_printable (status response))).
    reflexivity.
  - reflexivity.
  - reflexivity.
Qed.

(** X6: in the failure branch the status code reads back from standard
    output: the text after the failure label is the decimal rendering of
    the code [getcode] returned, and parsing it gives that code again. *)
Theorem X6_status_code_reads_back
    (env : process_env) (response : HTTPResponse) (w : world) :
  Urllib.urlopen url env initial_world = (Normal (HttpObj response), w) ->
  status response <> 200 ->
  exists text,
    out (run env) = line (failure_label ++ " " ++ text) /\
    all_chars printable text = true /\
    parse_int text = Some (status response).
Proof.
  intros U N. exists (int_str (status response)).
  destruct (run_returned env _ _ U) as [R ->].
  rewrite R, (check_response_other env _ response N).
  split; [reflexivity|].
  split; [apply int_str_printable | apply parse_int_str].
Qed.

Lemma X6_witness_206 :
  let env := bare_env (Reply 206 (encode "part")) in
  status (mkResponse 206 (encode "part")) <> 200 /\
  exists text,
    out (run env) = line (failure_label ++ " " ++ text) /\
    parse_int text = Some 206.
Proof.
  intros env.
  assert (N : status (mkResponse 206 (encode "part")) <> 200)
    by discriminate.
  split; [exact N|].
  destruct (X6_status_code_reads_back env
              (mkResponse 206 (encode "part")) opened eq_refl N)
    as (text & Hout & _ & Hparse).
  exists text. split; [exact Hout | exact Hparse].
Defined.

(** X7: standard output tells what the response was as far as the script
    looks at it.  Two runs in which [urlopen] returns and that write the
    same text had the same status code and, when that code is 200, the same
    body. *)
Theorem X7_output_determines_response
    (env1 env2 : process_env) (r1 r2 : HTTPResponse) (w1 w2 : world) :
  Urllib.urlopen url env1 initial_world = (Normal (HttpObj r1), w1) ->
  Urllib.urlopen url env2 initial_world = (Normal (HttpObj r2), w2) ->
  out (run env1) = out (run env2) ->
  status r1 = status r2 /\
  (status r1 = 200 -> payload r1 = payload r2).
Proof.
  intros U1 U2 H. revert H.
  destruct (run_returned env1 _ _ U1) as [R1 ->].
  destruct (run_returned env2 _ _ U2) as [R2 ->]. rewrite R1, R2.
  intros H.
  destruct (Z.eq_dec (status r1) 200) as [E1|N1];
    destruct (Z.eq_dec (status r2) 200) as [E2|N2].
  - split; [congruence|]. intros _. revert H. unfold payload.
    destruct (body_stream r1) as [b1|f1] eqn:B1;
      destruct (body_stream r2) as [b2|f2] eqn:B2.
    + rewrite (check_response_200 env1 _ r1 b1 E1 B1).
      rewrite (check_response_200 env2 _ r2 b2 E2 B2). cbn [out].
      intros H. apply append_cancel_l in H. unfold line in H.
      apply append_cancel_r in H.
      rewrite <- !append_assoc in H. apply append_cancel_l in H.
      apply (f_equal Literal.bytes_unrepr) in H.
      rewrite !bytes_unrepr_repr in H. congruence.
    + rewrite (check_response_200 env1 _ r1 b1 E1 B1).
      rewrite (check_response_broken env2 _ r2 f2 E2 B2). cbn [out].
      intros H. apply (f_equal String.length) in H.
      rewrite !append_length in H. unfold line in H.
      rewrite !append_length in H. simpl in H. lia.
    + rewrite (check_response_broken env1 _ r1 f1 E1 B1).
      rewrite (check_response_200 env2 _ r2 b2 E2 B2). cbn [out].
      intros H. apply (f_equal String.length) in H.
      rewrite !append_length in H. unfold line in H.
      rewrite !append_length in H. simpl in H. lia.
    + reflexivity.
  - exfalso. revert H.
    rewrite (check_response_other env2 _ r2 N2).
    destruct (body_stream r1) as [b1|f1] eqn:B1.
    + rewrite (check_response_200 env1 _ r1 b1 E1 B1).
      intros H. discriminate H.
    + rewrite (check_response_broken env1 _ r1 f1 E1 B1).
      intros H. discriminate H.
  - exfalso. revert H.
    rewrite (check_response_other env1 _ r1 N1).
    destruct (body_stream r2) as [b2|f2] eqn:B2.
    + rewrite (check_response_200 env2 _ r2 b2 E2 B2).
      intros H. discriminate H.
    + rewrite (check_response_broken env2 _ r2 f2 E2 B2).
      intros H. discriminate H.
  - revert H. rewrite (check_response_other env1 _ r1 N1).
    rewrite (check_response_other env2 _ r2 N2). cbn [out].
    intros H. split; [|contradiction].
    unfold line in H. apply append_cancel_r in H.
    rewrite <- !append_assoc in H. apply append_cancel_l in H.
    apply (f_equal parse_int) in H. rewrite !parse_int_str in H.
    congruence.
Qed.

Lemma X7_witness_same_text :
  let env1 := bare_env (Reply 200 (encode "OK")) in
  let env2 :=
    mkEnv ["-v"] [] None (fun _ => Reply 200 (encode "OK")) in
  out (run env1) = out (run env2) /\
  status (mkResponse 200 (encode "OK")) = 200 /\
  payload (mkResponse 200 (encode "OK")) = encode "OK".
Proof.
  intros env1 env2. split; [reflexivity|].
  destruct (X7_output_determines_response env1 env2
              (mkResponse 200 (encode "OK")) (mkResponse 200 (encode "OK"))
              opened opened eq_refl eq_refl eq_refl) as [Hs Hp].
  split; [reflexivity | exact (Hp eq_refl)].
Defined.

(** X8: the success marker is written before the body is read.  When
    [read] raises an exception on a response with status 200, the success
    marker line is already on standard output, no content line follows,
    and the run ends with the traceback of that exception and exit status
    1.  With the [read] of [Urllib] the script over a read operation is
    the script. *)
Theorem X8_read_failure_after_success_marker
    (env : process_env) (response : HTTPResponse) (w : world) (e : exn) :
  Urllib.urlopen url env initial_world = (Normal (HttpObj response), w) ->
  status response = 200 ->
  (forall code, e <> SystemExit code) ->
  run_with Urllib.read env = run env /\
  run_with (failing_read e) env =
    mkResult (line success_marker) (Some e) 1
             [CallUrlOpen probe_request; CallGetCode; CallRead].
Proof.
  intros U H200 Hexn. split; [reflexivity|].
  destruct (urlopen_outcome env _ _ U) as [_ ->].
  unfold run_with, main_with. rewrite (bind_normal env _ _ _ _ _ U).
  generalize (snd (chain env)). intros l.
  unfold check_response_with, Urllib.getcode, failing_read, print.
  unfold bind, record_call, write_stdout, ret, raise, opened_with. simpl.
  rewrite H200. simpl.
  destruct e; try reflexivity.
  now destruct (Hexn code).
Qed.

Lemma X8_witness_timeout_in_read :
  let env := bare_env (Reply 200 (encode "OK")) in
  status (mkResponse 200 (encode "OK")) = 200 /\
  out (run_with (failing_read (URLError TimedOut)) env) =
    line "Request successful!" /\
  exit_status (run_with (failing_read (URLError TimedOut)) env) = 1.
Proof.
  intros env. split; [reflexivity|].
  assert (Hexn : forall code, URLError TimedOut <> SystemExit code)
    by (intros code; discriminate).
  destruct (X8_read_failure_after_success_marker env
              (mkResponse 200 (encode "OK")) opened (URLError TimedOut)
              eq_refl eq_refl Hexn) as [_ E].
  rewrite E. split; reflexivity.
Defined.




